(** * rasa.nlu.train: the training-run coordinator and its worker wrapper

    A shallow embedding of [src/rasa/nlu/train.py].  The module sequences
    calls to collaborators that live elsewhere in rasa ([config.load],
    [Trainer], [get_persistor], [load_data], [load_data_from_endpoint]);
    they are taken as an interface ([Collaborators]) and every call to one of
    them is recorded, with the exception it raised if any, in a call log.
    Python code that can raise is written in a state-and-exception monad. *)

From Stdlib Require Import String List ZArith Sorted.
Import ListNotations.
Open Scope string_scope.

(** ** Python values and exceptions *)

(** The values that can sit in an exception's [args] tuple or in [**kwargs]. *)
Inductive PyVal :=
| PyNone
| PyBool (b : bool)
| PyInt (z : Z)
| PyStr (s : string)
| PyObj (id : nat).   (* any other object, by identity *)

(** An exception raised by lower-level code: its class, its [args] tuple and
    its truth value, what [bool(e)] gives.  BaseException defines neither
    [__bool__] nor [__len__], so an instance is truthy unless its class
    defines one of them. *)
Record PyExc := mkPyExc {
  exc_class : string;
  args : list PyVal;
  exc_truthy : bool
}.

(** An instance of a class that leaves the truth value alone. *)
Definition mkExc (cls : string) (a : list PyVal) : PyExc := mkPyExc cls a true.

(** [class TrainingException(Exception)]: the two attributes [__init__] may
    set.  [message = None] means that the attribute was never assigned. *)
Record TrainingException := mkTrainingException {
  failed_target_project : option string;
  message : option PyVal
}.

(** What a [raise] can carry out of this module. *)
Inductive Exc :=
| Training (te : TrainingException)
| Foreign (e : PyExc).

(** [exception.args[0]]: indexing an empty tuple raises IndexError. *)
Definition IndexError : PyExc :=
  mkExc "IndexError" [PyStr "tuple index out of range"].

Definition AttributeError (obj attr : string) : PyExc :=
  mkExc "AttributeError"
        [PyStr ("'" ++ obj ++ "' object has no attribute '" ++ attr ++ "'")].

(** [TrainingException.__init__(self, failed_target_project=None, exception=None)].
    [inl] is an exception raised while the object is being initialised. *)
Definition TrainingException_init
    (failed_target_project : option string) (exception : option PyExc)
  : PyExc + TrainingException :=
  match exception with
  | Some e =>
      if exc_truthy e                           (* if exception: *)
      then match args e with                    (*   exception.args[0] *)
           | a0 :: _ =>
               inr (mkTrainingException failed_target_project (Some a0))
           | [] => inl IndexError
           end
      else inr (mkTrainingException failed_target_project None)
  | None => inr (mkTrainingException failed_target_project None)
  end.

(** [TrainingException.__str__]: [return self.message]. *)
Definition TrainingException_str (self : TrainingException) : PyExc + PyVal :=
  match message self with
  | Some m => inr m
  | None => inl (AttributeError "TrainingException" "message")
  end.

(** Truthiness of an [Optional[Text]], as tested by [if path:]. *)
Definition truthy (x : option string) : bool :=
  match x with
  | Some s => negb (s =? "")
  | None => false
  end.

(** ** Outcomes *)

Inductive outcome (E A : Type) :=
| Returned (a : A)
| Raised (e : E).
Arguments Returned {E A} a.
Arguments Raised {E A} e.

Definition raised {E A} (r : outcome E A) : option E :=
  match r with
  | Returned _ => None
  | Raised e => Some e
  end.

(** ** The collaborators *)

(** The types of the objects handed around, declared outside this module. *)
Class Domain := {
  RasaNLUModelConfig : Type;
  ComponentBuilder : Type;
  EndpointConfig : Type;
  TrainingData : Type;
  Trainer : Type;
  Interpreter : Type;
  Persistor : Type;
  (** everything the collaborators read or change: files, network, the
      objects behind the handles above *)
  World : Type;
  (** [nlu_config.language] *)
  language : RasaNLUModelConfig -> PyVal
}.

(** [Union[Text, RasaNLUModelConfig]], told apart by [isinstance(_, str)]. *)
Inductive ConfigInput `{Domain} :=
| CfgStr (s : string)
| CfgObj (c : RasaNLUModelConfig).

Definition Kwargs := list (string * PyVal).

(** The behaviour of each collaborator: from the world before the call to
    what the call returns or raises and the world after it. *)
Class Collaborators `{Domain} := {
  impl_config_load :
    string -> World -> outcome PyExc RasaNLUModelConfig * World;
  impl_Trainer :
    RasaNLUModelConfig -> option ComponentBuilder ->
    World -> outcome PyExc Trainer * World;
  impl_get_persistor :
    string -> World -> outcome PyExc (option Persistor) * World;
  impl_load_data_from_endpoint :
    EndpointConfig -> PyVal -> World -> outcome PyExc TrainingData * World;
  impl_load_data :
    string -> PyVal -> World -> outcome PyExc TrainingData * World;
  impl_trainer_train :
    Trainer -> TrainingData -> Kwargs ->
    World -> outcome PyExc Interpreter * World;
  impl_trainer_persist :
    Trainer -> string -> option Persistor -> option string ->
    World -> outcome PyExc string * World
}.

(** A call made by this module, with its arguments. *)
Inductive Call `{Domain} :=
| CallConfigLoad (filename : string)
| CallTrainer (cfg : RasaNLUModelConfig) (cb : option ComponentBuilder)
| CallGetPersistor (name : string)
| CallLoadDataFromEndpoint (ep : EndpointConfig) (lang : PyVal)
| CallLoadData (data : string) (lang : PyVal)
| CallTrainerTrain (t : Trainer) (td : TrainingData) (kw : Kwargs)
| CallTrainerPersist (t : Trainer) (path : string)
                     (persistor : option Persistor) (name : option string)
| CallLoggerException (msg : string).

(** A logged call: the call and the exception it raised, if it raised. *)
Definition Event `{Domain} : Type := Call * option PyExc.

Definition is_data_acquisition `{Domain} (c : Call) : bool :=
  match c with
  | CallLoadDataFromEndpoint _ _ | CallLoadData _ _ => true
  | _ => false
  end.

Definition is_load_data `{Domain} (c : Call) : bool :=
  match c with CallLoadData _ _ => true | _ => false end.

Definition is_persist `{Domain} (c : Call) : bool :=
  match c with CallTrainerPersist _ _ _ _ => true | _ => false end.

Definition is_config_load `{Domain} (c : Call) : bool :=
  match c with CallConfigLoad _ => true | _ => false end.

(** The call builds the trainer from [c], or acquires data for [c]'s
    language; any other call passes. *)
Definition uses_config `{Domain} (c : RasaNLUModelConfig) (k : Call) : Prop :=
  match k with
  | CallTrainer c' _ => c' = c
  | CallLoadDataFromEndpoint _ lang | CallLoadData _ lang => lang = language c
  | _ => True
  end.

(** If the call acquires data, it does so from the endpoint [ep]. *)
Definition acquires_from_endpoint `{Domain} (ep : EndpointConfig) (k : Call)
  : Prop :=
  match k with
  | CallLoadDataFromEndpoint ep' _ => ep' = ep
  | CallLoadData _ _ => False
  | _ => True
  end.

(** The logged call returned normally. *)
Definition returned_normally `{Domain} (ev : Event) : Prop := snd ev = None.

(** ** The persistor collaborator *)

Definition PersistorResolutionError (name : string) : PyExc :=
  mkExc "PersistorResolutionError" [PyStr name].

(** Modelled from the spec: [get_persistor] of [rasa.nlu.persistor], which
    this module imports and calls but which is not part of it.  Given a
    storage-backend identifier it "resolves and constructs a persistor
    handle via the Artifact Persistor collaborator; fails with
    [PersistorResolutionError] if the identifier is unrecognized or the
    backend cannot be constructed".  [resolve] says which identifiers are
    recognised and how the backend of each is constructed; a construction
    that gives no handle has failed. *)
Definition spec_get_persistor `{Domain}
    (resolve : string -> option (World -> option Persistor * World))
    (name : string) (w : World) : outcome PyExc (option Persistor) * World :=
  match resolve name with
  | None => (Raised (PersistorResolutionError name), w)
  | Some construct =>
      match construct w with
      | (Some handle, w') => (Returned (Some handle), w')
      | (None, w') => (Raised (PersistorResolutionError name), w')
      end
  end.

(** ** The monad *)

Section Monad.
Context {D : Domain}.

Record State := mkState { world : World; trace : list Event }.

Definition Run (E A : Type) : Type := State -> outcome E A * State.

Definition ret {E A} (a : A) : Run E A := fun st => (Returned a, st).

Definition raise {E A} (e : E) : Run E A := fun st => (Raised e, st).

Definition bind {E A B} (m : Run E A) (k : A -> Run E B) : Run E B :=
  fun st =>
    match m st with
    | (Returned a, st') => k a st'
    | (Raised e, st') => (Raised e, st')
    end.

(** [try: m  except BaseException as e: h e] *)
Definition try_except {E E' A} (m : Run E A) (h : E -> Run E' A) : Run E' A :=
  fun st =>
    match m st with
    | (Returned a, st') => (Returned a, st')
    | (Raised e, st') => h e st'
    end.

(** Calling a collaborator: run it on the world and log the call. *)
Definition call {A} (c : Call) (f : World -> outcome PyExc A * World)
  : Run PyExc A :=
  fun st =>
    let (r, w) := f (world st) in
    (r, mkState w (trace st ++ [(c, raised r)])).

(** A run from a given world, with an empty call log. *)
Definition run {E A} (m : Run E A) (w : World) : outcome E A * State :=
  m (mkState w []).

Definition result_of {E A} (m : Run E A) (w : World) : outcome E A :=
  fst (run m w).

Definition events_of {E A} (m : Run E A) (w : World) : list Event :=
  trace (snd (run m w)).

Definition calls_of {E A} (m : Run E A) (w : World) : list Call :=
  map fst (events_of m w).
End Monad.

Declare Scope run_scope.
Delimit Scope run_scope with run.
Notation "x <- m ;; k" := (bind m (fun x => k))
  (at level 61, m at next level, right associativity) : run_scope.
Notation "' pat <- m ;; k" := (bind m (fun x => match x with pat => k end))
  (at level 61, pat pattern, m at next level, right associativity) : run_scope.
Notation "m ;; k" := (bind m (fun _ => k))
  (at level 61, right associativity) : run_scope.
Open Scope run_scope.

(** ** The module *)

Section Train.
Context {D : Domain} {C : Collaborators}.

(** The collaborators as this module calls them. *)
Definition config_load (filename : string) : Run PyExc RasaNLUModelConfig :=
  call (CallConfigLoad filename) (impl_config_load filename).

Definition Trainer_new (cfg : RasaNLUModelConfig)
    (component_builder : option ComponentBuilder) : Run PyExc Trainer :=
  call (CallTrainer cfg component_builder) (impl_Trainer cfg component_builder).

Definition get_persistor (name : string) : Run PyExc (option Persistor) :=
  call (CallGetPersistor name) (impl_get_persistor name).

Definition load_data_from_endpoint (ep : EndpointConfig) (lang : PyVal)
  : Run PyExc TrainingData :=
  call (CallLoadDataFromEndpoint ep lang) (impl_load_data_from_endpoint ep lang).

Definition load_data (data : string) (lang : PyVal) : Run PyExc TrainingData :=
  call (CallLoadData data lang) (impl_load_data data lang).

Definition trainer_train (trainer : Trainer) (td : TrainingData) (kwargs : Kwargs)
  : Run PyExc Interpreter :=
  call (CallTrainerTrain trainer td kwargs) (impl_trainer_train trainer td kwargs).

Definition trainer_persist (trainer : Trainer) (path : string)
    (persistor : option Persistor) (fixed_model_name : option string)
  : Run PyExc string :=
  call (CallTrainerPersist trainer path persistor fixed_model_name)
       (impl_trainer_persist trainer path persistor fixed_model_name).

(** [logger.exception(msg)] *)
Definition logger_exception {E} (msg : string) : Run E unit :=
  fun st => (Returned tt,
             mkState (world st) (trace st ++ [(CallLoggerException msg, None)])).

(** [def create_persistor(persistor: Optional[Text])] *)
Definition create_persistor (persistor : option string)
  : Run PyExc (option Persistor) :=
  match persistor with
  | Some name => get_persistor name          (* persistor is not None *)
  | None => ret None
  end.

(** [def train(nlu_config, data, path=None, fixed_model_name=None,
               storage=None, component_builder=None,
               training_data_endpoint=None, **kwargs)] *)
Definition train
    (nlu_config : ConfigInput) (data : string) (path : option string)
    (fixed_model_name : option string) (storage : option string)
    (component_builder : option ComponentBuilder)
    (training_data_endpoint : option EndpointConfig) (kwargs : Kwargs)
  : Run PyExc (Trainer * Interpreter * option string) :=
  nlu_config <- match nlu_config with
                | CfgStr s => config_load s   (* isinstance(nlu_config, str) *)
                | CfgObj c => ret c
                end ;;
  trainer <- Trainer_new nlu_config component_builder ;;
  persistor <- create_persistor storage ;;
  training_data <- match training_data_endpoint with
                   | Some ep => load_data_from_endpoint ep (language nlu_config)
                   | None => load_data data (language nlu_config)
                   end ;;
  interpreter <- trainer_train trainer training_data kwargs ;;
  persisted_path <- match path with
                    | Some p =>
                        if truthy path                        (* if path: *)
                        then p' <- trainer_persist trainer p persistor
                                                   fixed_model_name ;;
                             ret (Some p')
                        else ret None
                    | None => ret None
                    end ;;
  ret (trainer, interpreter, persisted_path).

(** [def do_train_in_worker(cfg, data, path, fixed_model_name=None,
                            storage=None, component_builder=None)].
    The annotations [cfg: RasaNLUModelConfig] and [path: Text] are not
    enforced; both arguments are handed to [train] as they come. *)
Definition do_train_in_worker
    (cfg : ConfigInput) (data : string) (path : option string)
    (fixed_model_name : option string) (storage : option string)
    (component_builder : option ComponentBuilder)
  : Run Exc (option string) :=
  try_except
    ('(_, _, persisted_path) <-
        train cfg data path fixed_model_name storage component_builder None [] ;;
     ret persisted_path)
    (fun e =>
       logger_exception ("Failed to train on data '" ++ data ++ "'.") ;;
       match TrainingException_init path (Some e) with
       | inr te => raise (Training te)
       | inl e' => raise (Foreign e')
       end).
End Train.

(** ** A concrete set of collaborators

    A small world to run the module in.  A configuration is its language
    tag, a trainer is the configuration it was built from, training data is
    a list of examples and the interpreter keeps them.  The world holds the
    exception the training engine raises on its next [train], if any. *)

Module Demo.

#[export] Instance domain : Domain := {
  RasaNLUModelConfig := string;
  ComponentBuilder := unit;
  EndpointConfig := string;
  TrainingData := list string;
  Trainer := string;
  Interpreter := list string;
  Persistor := string;
  World := option PyExc;
  language := PyStr
}.

Definition known_backend (name : string) : bool :=
  (name =? "aws") || (name =? "gcs") || (name =? "azure").

(** The recognised storage backends; constructing one always works. *)
Definition resolve (name : string)
  : option (World -> option Persistor * World) :=
  if known_backend name then Some (fun w => (Some name, w)) else None.

#[export] Instance collaborators : Collaborators := {
  impl_config_load filename w :=
    if filename =? "./cfg.yml" then (Returned "en", w)
    else (Raised (mkExc "InvalidConfigError"
                    [PyStr ("Failed to read configuration file '"
                            ++ filename ++ "'.")]), w);
  impl_Trainer cfg _ w := (Returned cfg, w);
  impl_get_persistor := spec_get_persistor resolve;
  impl_load_data_from_endpoint ep _ w := (Returned ["remote " ++ ep], w);
  impl_load_data data _ w :=
    if data =? "./data.md" then (Returned ["local " ++ data], w)
    else (Raised (mkExc "ValueError"
                    [PyStr ("File '" ++ data ++ "' does not exist.")]), w);
  impl_trainer_train _ td _ w :=
    match w with
    | Some e => (Raised e, None)
    | None => (Returned td, None)
    end;
  impl_trainer_persist _ path _ name w :=
    (Returned (path ++ "/" ++ match name with Some n => n | None => "nlu" end), w)
}.

(** The configuration reference used in the runs below. *)
Definition cfg : ConfigInput := CfgStr "./cfg.yml".

(** The training engine works. *)
Definition fine : World := None.

(** The training engine raises [e]. *)
Definition training_raises (e : PyExc) : World := Some e.

End Demo.

(** ** The steps of a run *)

(** The position of a call in the sequence of a run: configuration loading,
    trainer construction, persistor construction, data acquisition,
    training, persistence, and the log entry of the worker wrapper. *)
Definition stage `{Domain} (k : Call) : nat :=
  match k with
  | CallConfigLoad _ => 0
  | CallTrainer _ _ => 1
  | CallGetPersistor _ => 2
  | CallLoadDataFromEndpoint _ _ | CallLoadData _ _ => 3
  | CallTrainerTrain _ _ _ => 4
  | CallTrainerPersist _ _ _ _ => 5
  | CallLoggerException _ => 6
  end.

Definition is_get_persistor `{Domain} (c : Call) : bool :=
  match c with CallGetPersistor _ => true | _ => false end.

Definition is_logger_exception `{Domain} (c : Call) : bool :=
  match c with CallLoggerException _ => true | _ => false end.

(** ** Properties *)

Open Scope list_scope.

(** Unfold a run down to the collaborators' behaviours. *)
Ltac unfold_run :=
  unfold calls_of, events_of, result_of, run, do_train_in_worker, train,
    create_persistor, config_load, Trainer_new, get_persistor,
    load_data_from_endpoint, load_data, trainer_train, trainer_persist,
    logger_exception, try_except, bind, ret, raise, call;
  cbn.

(** Case analysis on the next collaborator call: it returns or it raises. *)
Ltac split_call t := destruct t as [[?|?] ?] eqn:?; cbn.

Ltac next_call :=
  match goal with
  | |- context [impl_config_load ?a ?w] => split_call (impl_config_load a w)
  | |- context [impl_Trainer ?a ?b ?w] => split_call (impl_Trainer a b w)
  | |- context [impl_get_persistor ?a ?w] => split_call (impl_get_persistor a w)
  | |- context [impl_load_data_from_endpoint ?a ?b ?w] =>
      split_call (impl_load_data_from_endpoint a b w)
  | |- context [impl_load_data ?a ?b ?w] => split_call (impl_load_data a b w)
  | |- context [impl_trainer_train ?a ?b ?c ?w] =>
      split_call (impl_trainer_train a b c w)
  | |- context [impl_trainer_persist ?a ?b ?c ?d ?w] =>
      split_call (impl_trainer_persist a b c d w)
  end.

(** Case analysis on an optional or string argument the code branches on. *)
Ltac split_path path :=
  destruct path as [[|? ?]|]; cbn.

(** An event found in an explicit log is one of its entries. *)
Ltac pick_event H :=
  cbn in H;
  repeat (destruct H as [H|H]; [try discriminate; try (inversion H; subst; clear H) | ]);
  try contradiction.

(** Where in an explicit log the [n]-th entry sits. *)
Ltac locate_event n Hn :=
  repeat (destruct n as [|n]; cbn in Hn;
          [inversion Hn; subst; clear Hn | try discriminate Hn]).

(** An explicit log that ends with a call that raised: all but the last
    entry, then the last. *)
Ltac end_of_log :=
  match goal with
  | |- exists pre k, ?l = pre ++ _ /\ _ => eexists (removelast l), _
  | |- exists e pre k, _ /\ ?l = pre ++ _ /\ _ => eexists _, (removelast l), _
  end.

Section Properties.
Context {D : Domain} {C : Collaborators}.

Implicit Types (cfg : ConfigInput) (data : string) (path : option string)
  (fixed_model_name storage : option string)
  (component_builder : option ComponentBuilder)
  (endpoint : option EndpointConfig) (kwargs : Kwargs) (w : World).

(** *** Shared lemmas *)

(** [train] raises only what a logged call raised: the last one. *)
Lemma train_raises_last cfg data path fixed_model_name storage
    component_builder endpoint kwargs w e :
  result_of (train cfg data path fixed_model_name storage component_builder
                   endpoint kwargs) w = Raised e ->
  exists pre c,
    events_of (train cfg data path fixed_model_name storage
                     component_builder endpoint kwargs) w
    = pre ++ [(c, Some e)].
Proof.
  unfold_run.
  destruct cfg, storage, endpoint; split_path path;
    repeat next_call; intros Hr; inversion Hr; subst;
    match goal with
    | |- exists pre c, ?l = _ => exists (removelast l)
    end; cbn; eexists; reflexivity.
Qed.

(** A logged call that raised is the last of the run, and the run ends
    with its exception. *)
Lemma train_propagates cfg data path fixed_model_name storage
    component_builder endpoint kwargs w c e :
  In (c, Some e) (events_of (train cfg data path fixed_model_name storage
                                   component_builder endpoint kwargs) w) ->
  result_of (train cfg data path fixed_model_name storage component_builder
                   endpoint kwargs) w = Raised e
  /\ exists pre,
      events_of (train cfg data path fixed_model_name storage
                       component_builder endpoint kwargs) w
      = pre ++ [(c, Some e)].
Proof.
  unfold_run.
  destruct cfg, storage, endpoint; split_path path;
    repeat next_call; intros Hin; pick_event Hin;
    (split; [reflexivity | ]);
    match goal with
    | |- exists pre, ?l = _ => exists (removelast l)
    end; reflexivity.
Qed.

(** The wrapper in terms of the call to [train] it makes. *)
Lemma do_train_in_worker_run cfg data path fixed_model_name storage
    component_builder w :
  run (do_train_in_worker cfg data path fixed_model_name storage
                          component_builder) w
  = match run (train cfg data path fixed_model_name storage
                     component_builder None []) w with
    | (Returned (_, _, persisted_path), st) => (Returned persisted_path, st)
    | (Raised e, st) =>
        (match TrainingException_init path (Some e) with
         | inr te => Raised (Training te)
         | inl e' => Raised (Foreign e')
         end,
         mkState (world st)
           (trace st ++ [(CallLoggerException
                            ("Failed to train on data '" ++ data ++ "'.")%string,
                          None)]))
    end.
Proof.
  unfold run, do_train_in_worker, try_except, bind, ret, raise,
    logger_exception.
  destruct (train cfg data path fixed_model_name storage component_builder
                  None [] (mkState w [])) as [[[[t i] p]|e] st].
  - reflexivity.
  - destruct (TrainingException_init path (Some e)); reflexivity.
Qed.

(** Translation of a truthy failure that carries at least one argument. *)
Lemma worker_translates cfg data path fixed_model_name storage
    component_builder w e a0 rest :
  result_of (train cfg data path fixed_model_name storage component_builder
                   None []) w = Raised e ->
  exc_truthy e = true ->
  args e = a0 :: rest ->
  result_of (do_train_in_worker cfg data path fixed_model_name storage
                                component_builder) w
  = Raised (Training (mkTrainingException path (Some a0))).
Proof.
  unfold result_of. rewrite do_train_in_worker_run.
  destruct (run _ w) as [[[[t i] p]|e'] st]; cbn [fst]; intros Hr Ht Ha;
    inversion Hr; subst.
  unfold TrainingException_init. rewrite Ht, Ha. reflexivity.
Qed.

(** *** The worker wrapper *)

(** C2 (as amended): [do_train_in_worker] takes the first six inputs of
    [train], hands them over unchanged with no endpoint and no keyword
    parameters, and when that call returns it returns the third component
    of the result, leaving the world and the call log as [train] left
    them. *)
Theorem C2_worker_returns_persisted_path cfg data path fixed_model_name
    storage component_builder w trainer interpreter persisted_path :
  result_of (train cfg data path fixed_model_name storage component_builder
                   None []) w
  = Returned (trainer, interpreter, persisted_path) ->
  run (do_train_in_worker cfg data path fixed_model_name storage
                          component_builder) w
  = (Returned persisted_path,
     snd (run (train cfg data path fixed_model_name storage
                     component_builder None []) w)).
Proof.
  unfold result_of. rewrite do_train_in_worker_run.
  destruct (run _ w) as [[[[t i] p]|e] st]; cbn; intros Hr;
    inversion Hr; subst; reflexivity.
Qed.

(** C3 (as amended): every TrainingException raised by
    [do_train_in_worker] carries the path of the run, and its message is
    never made up: when the failure that [train] raised is truthy, the
    message is the first argument of that failure, whatever that value is;
    when the failure is falsy, no message is set. *)
Theorem C3_message_is_first_argument cfg data path fixed_model_name storage
    component_builder w te :
  result_of (do_train_in_worker cfg data path fixed_model_name storage
                                component_builder) w
  = Raised (Training te) ->
  exists e,
    result_of (train cfg data path fixed_model_name storage
                     component_builder None []) w = Raised e
    /\ failed_target_project te = path
    /\ if exc_truthy e
       then exists a0 rest, args e = a0 :: rest /\ message te = Some a0
       else message te = None.
Proof.
  unfold result_of. rewrite do_train_in_worker_run.
  destruct (run _ w) as [[[[t i] p]|e] st]; cbn [fst]; [discriminate | ].
  unfold TrainingException_init.
  destruct (exc_truthy e) eqn:Ht; [destruct (args e) as [|a0 rest] eqn:Ha | ];
    intros Hr; inversion Hr; subst; exists e; rewrite Ht;
    (split; [reflexivity | split; [reflexivity | ]]).
  - exists a0, rest. split; [exact Ha | reflexivity].
  - reflexivity.
Qed.

(** C9 (as amended): when the failure caught by [do_train_in_worker] has
    an empty [args] tuple and is truthy, building the TrainingException
    raises IndexError and the wrapper raises that instead of a
    TrainingException; when it is falsy, [if exception:] skips the indexing
    and the wrapper raises a TrainingException without message.  A
    TrainingException built without an exception has no message attribute,
    so that its [__str__] raises AttributeError. *)
Theorem C9_argless_failure_raises_IndexError cfg data path fixed_model_name
    storage component_builder w e :
  result_of (train cfg data path fixed_model_name storage component_builder
                   None []) w = Raised e ->
  args e = [] ->
  (if exc_truthy e
   then TrainingException_init path (Some e) = inl IndexError
        /\ result_of (do_train_in_worker cfg data path fixed_model_name
                                         storage component_builder) w
           = Raised (Foreign IndexError)
   else result_of (do_train_in_worker cfg data path fixed_model_name storage
                                      component_builder) w
        = Raised (Training (mkTrainingException path None)))
  /\ (forall project,
        TrainingException_init project None
        = inr (mkTrainingException project None)
        /\ TrainingException_str (mkTrainingException project None)
           = inl (AttributeError "TrainingException" "message")).
Proof.
  intros Hr Ha.
  split; [ | intros; split; reflexivity].
  revert Hr. unfold result_of. rewrite do_train_in_worker_run.
  destruct (run _ w) as [[[[t i] p]|e'] st]; cbn [fst]; intros Hr;
    inversion Hr; subst.
  unfold TrainingException_init. rewrite Ha.
  destruct (exc_truthy e); [split | ]; reflexivity.
Qed.

(** *** The run coordinator *)

(** C6: a failure raised by any step of [train] (configuration loading,
    trainer or persistor construction, data acquisition, training,
    persistence) ends the run there and is what [train] raises, the same
    exception with its class and arguments; every call logged before it
    returned normally, so nothing was caught on the way. *)
Theorem C6_train_propagates_unmodified cfg data path fixed_model_name
    storage component_builder endpoint kwargs w c e :
  In (c, Some e) (events_of (train cfg data path fixed_model_name storage
                                   component_builder endpoint kwargs) w) ->
  result_of (train cfg data path fixed_model_name storage component_builder
                   endpoint kwargs) w = Raised e
  /\ exists pre,
      events_of (train cfg data path fixed_model_name storage
                       component_builder endpoint kwargs) w
      = pre ++ [(c, Some e)]
      /\ Forall returned_normally pre.
Proof.
  unfold_run.
  destruct cfg, storage, endpoint; split_path path;
    repeat next_call; intros Hin; pick_event Hin;
    (split; [reflexivity | ]);
    match goal with
    | |- exists pre, ?l = _ /\ _ => exists (removelast l)
    end; (split; [reflexivity | cbn; repeat constructor]).
Qed.

(** C4: when [train] is given no output path, a result it returns has
    [persisted_path = None], [trainer.persist] is never called (and the
    persistor, which is only ever handed to [trainer.persist], is never
    used), and an exception it raises is one that a collaborator call
    raised, not one caused by the missing path; and whatever the path, a
    result with a persisted path is only returned when a path was
    supplied. *)
Theorem C4_no_path_no_persistence cfg data fixed_model_name storage
    component_builder endpoint kwargs w :
  match result_of (train cfg data None fixed_model_name storage
                         component_builder endpoint kwargs) w with
  | Returned (_, _, persisted_path) => persisted_path = None
  | Raised e =>
      exists c, In (c, Some e)
                   (events_of (train cfg data None fixed_model_name storage
                                     component_builder endpoint kwargs) w)
  end
  /\ forallb (fun k => negb (is_persist k))
             (calls_of (train cfg data None fixed_model_name storage
                              component_builder endpoint kwargs) w) = true
  /\ forall path,
      match result_of (train cfg data path fixed_model_name storage
                             component_builder endpoint kwargs) w with
      | Returned (_, _, Some _) => exists p, path = Some p /\ p <> ""%string
      | _ => True
      end.
Proof.
  split; [ | split; [ | intros path]]; unfold_run.
  - destruct cfg, storage, endpoint; repeat next_call;
      try reflexivity; eexists; cbn; eauto 10.
  - destruct cfg, storage, endpoint; repeat next_call; reflexivity.
  - destruct cfg, storage, endpoint; split_path path; repeat next_call;
      try exact I; eexists; (split; [reflexivity | discriminate]).
Qed.

(** C10: an empty-string output path is treated as an absent one: the run
    with [path = ""] is the run with [path = None], call for call, so a
    result it returns has [persisted_path = None] and [trainer.persist] is
    never called, because [if path:] tests truthiness. *)
Theorem C10_empty_path_is_absent cfg data fixed_model_name storage
    component_builder endpoint kwargs w :
  truthy (Some ""%string) = false
  /\ run (train cfg data (Some ""%string) fixed_model_name storage
                component_builder endpoint kwargs) w
     = run (train cfg data None fixed_model_name storage component_builder
                  endpoint kwargs) w
  /\ match result_of (train cfg data (Some ""%string) fixed_model_name
                            storage component_builder endpoint kwargs) w with
     | Returned (_, _, persisted_path) => persisted_path = None
     | Raised _ => True
     end
  /\ forallb (fun k => negb (is_persist k))
             (calls_of (train cfg data (Some ""%string) fixed_model_name
                              storage component_builder endpoint kwargs) w)
     = true.
Proof.
  split; [reflexivity | split; [reflexivity | split]]; unfold_run;
    destruct cfg, storage, endpoint; repeat next_call;
    reflexivity || exact I.
Qed.

(** C5: when a remote endpoint is supplied together with a local data
    path, the run does not depend on the local path at all, [load_data] is
    never called and every data acquisition call is
    [load_data_from_endpoint] on that endpoint.  The data is acquired from
    the endpoint in every run that gets that far: a run that returns has
    called [load_data_from_endpoint] on the endpoint, for the language of the
    configuration its trainer was built from, and has trained on what that
    call returned; a run that raises has made that call too, unless it ended
    before, with a failure of configuration loading, trainer construction or
    persistor construction. *)
Theorem C5_remote_endpoint_takes_precedence cfg data path fixed_model_name
    storage component_builder ep kwargs w :
  (forall data',
      run (train cfg data path fixed_model_name storage component_builder
                 (Some ep) kwargs) w
      = run (train cfg data' path fixed_model_name storage
                   component_builder (Some ep) kwargs) w)
  /\ forallb (fun k => negb (is_load_data k))
             (calls_of (train cfg data path fixed_model_name storage
                              component_builder (Some ep) kwargs) w) = true
  /\ Forall (acquires_from_endpoint ep)
            (calls_of (train cfg data path fixed_model_name storage
                             component_builder (Some ep) kwargs) w)
  /\ match result_of (train cfg data path fixed_model_name storage
                            component_builder (Some ep) kwargs) w with
     | Returned (trainer, _, _) =>
         exists c td w1 w2,
           In (CallTrainer c component_builder, None)
              (events_of (train cfg data path fixed_model_name storage
                                component_builder (Some ep) kwargs) w)
           /\ In (CallLoadDataFromEndpoint ep (language c), None)
                 (events_of (train cfg data path fixed_model_name storage
                                   component_builder (Some ep) kwargs) w)
           /\ impl_load_data_from_endpoint ep (language c) w1
              = (Returned td, w2)
           /\ In (CallTrainerTrain trainer td kwargs, None)
                 (events_of (train cfg data path fixed_model_name storage
                                   component_builder (Some ep) kwargs) w)
     | Raised e =>
         (exists c,
             In (CallTrainer c component_builder, None)
                (events_of (train cfg data path fixed_model_name storage
                                  component_builder (Some ep) kwargs) w)
             /\ In (CallLoadDataFromEndpoint ep (language c))
                   (calls_of (train cfg data path fixed_model_name storage
                                    component_builder (Some ep) kwargs) w))
         \/ (exists pre k,
                events_of (train cfg data path fixed_model_name storage
                                 component_builder (Some ep) kwargs) w
                = pre ++ [(k, Some e)]
                /\ stage k < 3)
     end.
Proof.
  split; [reflexivity | split; [ | split]]; unfold_run;
    destruct cfg, storage; split_path path; repeat next_call;
    try reflexivity; try (repeat constructor; fail).
  all: first
         [ solve [do 4 eexists;
                  (split; [cbn; eauto 10
                          | split; [cbn; eauto 10
                                   | split; [eassumption | cbn; eauto 10]]])]
         | solve [left; eexists; split; cbn; eauto 10]
         | solve [right; end_of_log;
                  (split; [reflexivity | cbn; repeat constructor])] ].
Qed.

(** C7: in every run of [train] with a storage identifier, a data
    acquisition call ([load_data] or [load_data_from_endpoint]) is only
    ever made after [get_persistor] has returned normally.  With
    [get_persistor] as the specification describes it, an unrecognised
    identifier makes the run raise and no data acquisition call is made in
    it: the run ends with [get_persistor] raising PersistorResolutionError,
    unless configuration loading or trainer construction failed before. *)
Theorem C7_persistor_before_data cfg data path fixed_model_name name
    component_builder endpoint kwargs w :
  (forall n k r,
      nth_error (events_of (train cfg data path fixed_model_name
                                  (Some name) component_builder endpoint
                                  kwargs) w) n = Some (k, r) ->
      is_data_acquisition k = true ->
      In (CallGetPersistor name, None)
         (firstn n (events_of (train cfg data path fixed_model_name
                                     (Some name) component_builder
                                     endpoint kwargs) w)))
  /\ (forall resolve,
         (forall n w',
             impl_get_persistor n w' = spec_get_persistor resolve n w') ->
         resolve name = None ->
         forallb (fun k => negb (is_data_acquisition k))
                 (calls_of (train cfg data path fixed_model_name (Some name)
                                  component_builder endpoint kwargs) w)
         = true
         /\ exists e pre k,
             result_of (train cfg data path fixed_model_name (Some name)
                              component_builder endpoint kwargs) w
             = Raised e
             /\ events_of (train cfg data path fixed_model_name (Some name)
                                 component_builder endpoint kwargs) w
                = pre ++ [(k, Some e)]
             /\ (stage k < 2
                 \/ (k = CallGetPersistor name
                     /\ e = PersistorResolutionError name))).
Proof.
  split.
  - unfold_run.
    destruct cfg, endpoint; split_path path; repeat next_call;
      intros n k r Hn Hk; locate_event n Hn;
      cbn in Hk; try discriminate Hk; cbn; auto 10.
  - intros resolve Hspec Hunk. unfold_run.
    destruct cfg, endpoint; split_path path; repeat next_call.
    all: try match goal with
             | Hq : impl_get_persistor _ _ = _ |- _ =>
                 rewrite Hspec in Hq; unfold spec_get_persistor in Hq;
                 rewrite Hunk in Hq; inversion Hq; subst; clear Hq
             end.
    all: (split; [reflexivity | ]); end_of_log;
      (split; [reflexivity | split; [reflexivity | ]]).
    all: first [ solve [left; cbn; repeat constructor]
               | solve [right; split; reflexivity] ].
Qed.

(** C8: a configuration object given to [train] is used as it is: the
    configuration loader is never called, the first call of the run builds
    the trainer from that very object, and every data acquisition call
    takes the language of that object; a string reference, and only a
    string reference, is first handed to the configuration loader. *)
Theorem C8_config_object_passthrough c data path fixed_model_name storage
    component_builder endpoint kwargs w :
  hd_error (calls_of (train (CfgObj c) data path fixed_model_name storage
                            component_builder endpoint kwargs) w)
  = Some (CallTrainer c component_builder)
  /\ forallb (fun k => negb (is_config_load k))
             (calls_of (train (CfgObj c) data path fixed_model_name storage
                              component_builder endpoint kwargs) w) = true
  /\ Forall (uses_config c)
            (calls_of (train (CfgObj c) data path fixed_model_name storage
                             component_builder endpoint kwargs) w)
  /\ forall s,
      hd_error (calls_of (train (CfgStr s) data path fixed_model_name
                                storage component_builder endpoint kwargs) w)
      = Some (CallConfigLoad s).
Proof.
  split; [ | split; [ | split; [ | intros s]]]; unfold_run.
  - destruct storage, endpoint; split_path path; repeat next_call;
      reflexivity.
  - destruct storage, endpoint; split_path path; repeat next_call;
      reflexivity.
  - destruct storage, endpoint; split_path path; repeat next_call;
      repeat constructor.
  - destruct storage, endpoint; split_path path; repeat next_call;
      reflexivity.
Qed.

(** Loading a configuration and then running on the loaded object is the
    run on the reference: resolution happens once, at entry. *)
Lemma train_on_loaded_config s c data path fixed_model_name storage
    component_builder endpoint kwargs w w' :
  impl_config_load s w = (Returned c, w') ->
  result_of (train (CfgStr s) data path fixed_model_name storage
                   component_builder endpoint kwargs) w
  = result_of (train (CfgObj c) data path fixed_model_name storage
                     component_builder endpoint kwargs) w'.
Proof.
  intros Hl. unfold_run. rewrite Hl. cbn.
  destruct storage, endpoint; split_path path; repeat next_call;
    reflexivity.
Qed.

End Properties.

(** ** Runs in the concrete world *)

Section Scenarios.
Import Demo.

(** Scenario A of the specification: no output path, nothing persisted. *)
Example scenario_no_output_path :
  run (train cfg "./data.md"%string None None None None None []) fine
  = (Returned ("en", ["local ./data.md"], None)%string,
     mkState fine
       [(CallConfigLoad "./cfg.yml", None);
        (CallTrainer "en" None, None);
        (CallLoadData "./data.md" (PyStr "en"), None);
        (CallTrainerTrain "en" ["local ./data.md"] [], None)]%string).
Proof. reflexivity. Qed.

(** Scenario D: a failure with a message crosses the worker boundary. *)
Example scenario_bad_feature :
  result_of (do_train_in_worker cfg "./data.md"%string (Some "./out"%string)
                                None None None)
            (training_raises (mkExc "ValueError" [PyStr "bad feature X"]))
  = Raised (Training (mkTrainingException (Some "./out"%string)
                                          (Some (PyStr "bad feature X")))).
Proof. reflexivity. Qed.

(** C1: the claim fails on the code when the failure has no arguments.
    The training engine raises [AssertionError()], whose [args] is the
    empty tuple; [train] raises it unchanged, and [do_train_in_worker],
    instead of a TrainingException for "./out", raises the IndexError of
    [exception.args[0]]. *)
Theorem C1_argless_failure_is_not_translated :
  result_of (train cfg "./data.md"%string (Some "./out"%string) None None
                   None None [])
            (training_raises (mkExc "AssertionError" []))
  = Raised (mkExc "AssertionError" [])
  /\ result_of (do_train_in_worker cfg "./data.md"%string
                                   (Some "./out"%string) None None None)
               (training_raises (mkExc "AssertionError" []))
     = Raised (Foreign IndexError).
Proof. split; reflexivity. Qed.

(** C2, as stated, fails: [train] takes an endpoint that the wrapper has
    no parameter for.  With the endpoint, [train] succeeds on a missing
    local file; the wrapper, given the same six inputs it can take, loads
    the local file and raises. *)
Lemma C2_endpoint_is_not_an_input_of_the_worker :
  result_of (train cfg "./missing.md"%string (Some "./models"%string) None
                   None None (Some "http://x"%string) []) fine
  = Returned ("en", ["remote http://x"], Some "./models/nlu")%string
  /\ result_of (do_train_in_worker cfg "./missing.md"%string
                                   (Some "./models"%string) None None None)
               fine
     = Raised (Training (mkTrainingException
                           (Some "./models"%string)
                           (Some (PyStr "File './missing.md' does not exist."))))
  /\ result_of (do_train_in_worker cfg "./missing.md"%string
                                   (Some "./models"%string) None None None)
               fine
     <> Returned (Some "./models/nlu"%string).
Proof. split; [reflexivity | split; [reflexivity | discriminate]]. Qed.

Lemma C2_worker_returns_persisted_path_witness :
  result_of (train cfg "./data.md"%string (Some "./models"%string) None None
                   None None []) fine
  = Returned ("en", ["local ./data.md"], Some "./models/nlu")%string
  /\ result_of (do_train_in_worker cfg "./data.md"%string
                                   (Some "./models"%string) None None None)
               fine
     = Returned (Some "./models/nlu"%string).
Proof.
  split; [reflexivity | ].
  unfold result_of.
  erewrite C2_worker_returns_persisted_path; reflexivity.
Defined.

(** C3, as stated, fails: a failure whose first argument is the empty
    string gives a TrainingException with an empty message. *)
Lemma C3_message_can_be_empty :
  result_of (do_train_in_worker cfg "./data.md"%string (Some "./out"%string)
                                None None None)
            (training_raises (mkExc "ValueError" [PyStr ""]))
  = Raised (Training (mkTrainingException (Some "./out"%string)
                                          (Some (PyStr ""))))
  /\ message (mkTrainingException (Some "./out"%string) (Some (PyStr "")))
     = Some (PyStr "").
Proof. split; reflexivity. Qed.

Lemma C3_message_is_first_argument_witness :
  exists e,
    result_of (train cfg "./data.md"%string (Some "./out"%string) None None
                     None None [])
              (training_raises (mkExc "ValueError" [PyStr "bad feature X"]))
    = Raised e
    /\ Some "./out"%string = Some "./out"%string
    /\ if exc_truthy e
       then exists a0 rest,
           args e = a0 :: rest /\ Some (PyStr "bad feature X") = Some a0
       else Some (PyStr "bad feature X") = None.
Proof.
  apply (C3_message_is_first_argument
           cfg "./data.md"%string (Some "./out"%string) None None None
           (training_raises (mkExc "ValueError" [PyStr "bad feature X"]))
           (mkTrainingException (Some "./out"%string)
                                (Some (PyStr "bad feature X")))).
  reflexivity.
Defined.

(** A falsy failure crosses the worker boundary without its message: the
    class of this exception defines [__len__], which gives 0 here. *)
Example scenario_falsy_failure :
  result_of (do_train_in_worker cfg "./data.md"%string (Some "./out"%string)
                                None None None)
            (training_raises (mkPyExc "EmptyBatch" [PyStr "no examples"] false))
  = Raised (Training (mkTrainingException (Some "./out"%string) None)).
Proof. reflexivity. Qed.

(** C9, as stated, fails: a failure without arguments that is falsy never
    reaches [exception.args[0]]; the wrapper raises a TrainingException, one
    without message, and no IndexError. *)
Lemma C9_falsy_argless_failure_is_wrapped :
  args (mkPyExc "EmptyBatch" [] false) = []
  /\ result_of (train cfg "./data.md"%string (Some "./out"%string) None None
                      None None [])
               (training_raises (mkPyExc "EmptyBatch" [] false))
     = Raised (mkPyExc "EmptyBatch" [] false)
  /\ result_of (do_train_in_worker cfg "./data.md"%string
                                   (Some "./out"%string) None None None)
               (training_raises (mkPyExc "EmptyBatch" [] false))
     = Raised (Training (mkTrainingException (Some "./out"%string) None))
  /\ result_of (do_train_in_worker cfg "./data.md"%string
                                   (Some "./out"%string) None None None)
               (training_raises (mkPyExc "EmptyBatch" [] false))
     <> Raised (Foreign IndexError).
Proof.
  split; [reflexivity | split; [reflexivity | split; [reflexivity | ]]].
  discriminate.
Qed.

Lemma C9_argless_failure_raises_IndexError_witness :
  result_of (do_train_in_worker cfg "./data.md"%string (Some "./out"%string)
                                None None None)
            (training_raises (mkExc "KeyboardInterrupt" []))
  = Raised (Foreign IndexError).
Proof.
  refine (proj2 (proj1 (C9_argless_failure_raises_IndexError
                          cfg "./data.md"%string (Some "./out"%string) None
                          None None
                          (training_raises (mkExc "KeyboardInterrupt" []))
                          (mkExc "KeyboardInterrupt" []) _ _)));
    reflexivity.
Defined.

Lemma C6_train_propagates_unmodified_witness :
  result_of (train cfg "./data.md"%string (Some "./out"%string) None None
                   None None [])
            (training_raises (mkExc "ValueError" [PyStr "bad feature X"]))
  = Raised (mkExc "ValueError" [PyStr "bad feature X"]).
Proof.
  refine (proj1 (C6_train_propagates_unmodified
                   cfg "./data.md"%string (Some "./out"%string) None None
                   None None []
                   (training_raises (mkExc "ValueError" [PyStr "bad feature X"]))
                   (CallTrainerTrain "en"%string ["local ./data.md"%string] [])
                   (mkExc "ValueError" [PyStr "bad feature X"]) _)).
  vm_compute. auto 10.
Defined.

Lemma C7_persistor_before_data_witness :
  forallb (fun k => negb (is_data_acquisition k))
          (calls_of (train cfg "./data.md"%string (Some "./out"%string) None
                           (Some "unknown-backend"%string) None None []) fine)
  = true
  /\ exists e pre k,
      result_of (train cfg "./data.md"%string (Some "./out"%string) None
                       (Some "unknown-backend"%string) None None []) fine
      = Raised e
      /\ events_of (train cfg "./data.md"%string (Some "./out"%string) None
                          (Some "unknown-backend"%string) None None []) fine
         = pre ++ [(k, Some e)]
      /\ (stage k < 2
          \/ (k = CallGetPersistor "unknown-backend"%string
              /\ e = PersistorResolutionError "unknown-backend"%string)).
Proof.
  apply (proj2 (C7_persistor_before_data
                  cfg "./data.md"%string (Some "./out"%string) None
                  "unknown-backend"%string None None [] fine)
               resolve).
  - intros n w'. reflexivity.
  - reflexivity.
Defined.

End Scenarios.

(** ** Sequencing, arguments and the worker's log *)

(** Case analysis on the [args] of a caught exception. *)
Ltac split_args :=
  repeat match goal with
         | |- context [if exc_truthy ?e then _ else _] =>
             destruct (exc_truthy e) eqn:?; cbn
         | |- context [match args ?e with _ => _ end] =>
             destruct (args e) eqn:?; cbn
         end.

(** The log is its entries but the last, then the last. *)
Ltac show_last :=
  match goal with
  | |- exists pre, ?l = pre ++ _ => exists (removelast l); reflexivity
  end.

Section Sequencing.
Context {D : Domain} {C : Collaborators}.

Implicit Types (cfg : ConfigInput) (data : string) (path : option string)
  (fixed_model_name storage : option string)
  (component_builder : option ComponentBuilder)
  (endpoint : option EndpointConfig) (kwargs : Kwargs) (w : World).

(** The calls of a run of [train], and of a run of the worker wrapper, come
    in strictly increasing stage: configuration loading, trainer, persistor,
    data, training, persistence, log entry.  No step is repeated or retried
    and none runs out of turn. *)
Theorem calls_in_stage_order cfg data path fixed_model_name storage
    component_builder endpoint kwargs w :
  StronglySorted lt
    (map stage (calls_of (train cfg data path fixed_model_name storage
                                component_builder endpoint kwargs) w))
  /\ StronglySorted lt
       (map stage (calls_of (do_train_in_worker cfg data path fixed_model_name
                                                storage component_builder) w)).
Proof.
  split; unfold_run.
  - destruct cfg, storage, endpoint; split_path path; repeat next_call;
      repeat constructor.
  - destruct cfg, storage; split_path path; repeat next_call; split_args;
      repeat constructor.
Qed.

(** The worker wrapper adds one thing to the calls of [train]: when [train]
    raises, a single log entry naming the data, after everything else; when
    [train] returns it adds nothing.  [train] itself never logs, and the
    wrapper leaves the world as [train] left it. *)
Theorem worker_logs_once_on_failure cfg data path fixed_model_name storage
    component_builder w :
  events_of (do_train_in_worker cfg data path fixed_model_name storage
                                component_builder) w
  = events_of (train cfg data path fixed_model_name storage component_builder
                     None []) w
    ++ match result_of (train cfg data path fixed_model_name storage
                              component_builder None []) w with
       | Returned _ => []
       | Raised _ =>
           [(CallLoggerException
               ("Failed to train on data '" ++ data ++ "'.")%string, None)]
       end
  /\ forallb (fun k => negb (is_logger_exception k))
             (calls_of (train cfg data path fixed_model_name storage
                              component_builder None []) w) = true
  /\ world (snd (run (do_train_in_worker cfg data path fixed_model_name
                                         storage component_builder) w))
     = world (snd (run (train cfg data path fixed_model_name storage
                              component_builder None []) w)).
Proof.
  split; [ | split].
  - unfold events_of, result_of. rewrite do_train_in_worker_run.
    destruct (run _ w) as [[[[t i] p]|e] st]; cbn [fst snd trace].
    + symmetry. apply app_nil_r.
    + reflexivity.
  - unfold_run.
    destruct cfg, storage; split_path path; repeat next_call; reflexivity.
  - rewrite do_train_in_worker_run.
    destruct (run _ w) as [[[[t i] p]|e] st]; reflexivity.
Qed.

(** A failure of [train] is never swallowed by the worker wrapper and never
    leaves it as the exception it was: the wrapper raises, and what it raises
    is not the original exception. *)
Theorem worker_never_reraises_original cfg data path fixed_model_name storage
    component_builder w e :
  result_of (train cfg data path fixed_model_name storage component_builder
                   None []) w = Raised e ->
  (exists x, result_of (do_train_in_worker cfg data path fixed_model_name
                                           storage component_builder) w
             = Raised x)
  /\ result_of (do_train_in_worker cfg data path fixed_model_name storage
                                   component_builder) w
     <> Raised (Foreign e).
Proof.
  unfold result_of. rewrite do_train_in_worker_run.
  destruct (run _ w) as [[[[t i] p]|e'] st]; cbn [fst]; intros Hr;
    inversion Hr; subst.
  unfold TrainingException_init.
  destruct (exc_truthy e); [ | split; [eexists; reflexivity | discriminate]].
  destruct (args e) as [|a0 rest] eqn:Ha; split.
  - eexists; reflexivity.
  - intros Hx. inversion Hx; subst. discriminate Ha.
  - eexists; reflexivity.
  - discriminate.
Qed.

(** With a non-empty output path, a run of [train] that returns has called
    [trainer.persist] last, on the trainer it returns, with that path and
    the given model name, and its [persisted_path] is what that call
    returned. *)
Theorem persist_called_for_nonempty_path cfg data p fixed_model_name storage
    component_builder endpoint kwargs w trainer interpreter persisted_path :
  p <> ""%string ->
  result_of (train cfg data (Some p) fixed_model_name storage
                   component_builder endpoint kwargs) w
  = Returned (trainer, interpreter, persisted_path) ->
  exists persistor p',
    persisted_path = Some p'
    /\ (exists w1 w2,
           impl_trainer_persist trainer p persistor fixed_model_name w1
           = (Returned p', w2))
    /\ exists pre,
        events_of (train cfg data (Some p) fixed_model_name storage
                         component_builder endpoint kwargs) w
        = pre ++ [(CallTrainerPersist trainer p persistor fixed_model_name,
                   None)].
Proof.
  intros Hne. destruct p as [|a p]; [congruence | clear Hne].
  unfold_run.
  destruct cfg, storage, endpoint; repeat next_call; intros Hr;
    inversion Hr; subst;
    do 2 eexists; (split; [reflexivity | split; [eauto | show_last]]).
Qed.

(** Whenever [train] calls [trainer.persist], the path and the model name
    are the caller's, the path is not empty, and the persistor is [None]
    when no storage was named and otherwise what [get_persistor] returned
    for that name. *)
Theorem persist_receives_inputs cfg data path fixed_model_name storage
    component_builder endpoint kwargs w t p persistor name :
  In (CallTrainerPersist t p persistor name)
     (calls_of (train cfg data path fixed_model_name storage
                      component_builder endpoint kwargs) w) ->
  path = Some p /\ p <> ""%string /\ name = fixed_model_name
  /\ match storage with
     | None => persistor = None
     | Some backend =>
         exists w1 w2,
           impl_get_persistor backend w1 = (Returned persistor, w2)
     end.
Proof.
  unfold_run.
  destruct cfg, storage, endpoint; split_path path; repeat next_call;
    intros Hin; pick_event Hin;
    (split; [reflexivity | split; [discriminate | split; [reflexivity | ]]]);
    eauto.
Qed.

(** Whether the persistor is built depends on [storage] alone, not on the
    output path: without a storage name [get_persistor] is never called;
    with one, even the empty string and even when nothing will be persisted,
    every run that returns has called it. *)
Theorem persistor_built_iff_storage cfg data path fixed_model_name storage
    component_builder endpoint kwargs w :
  match storage with
  | None =>
      forallb (fun k => negb (is_get_persistor k))
              (calls_of (train cfg data path fixed_model_name None
                               component_builder endpoint kwargs) w) = true
  | Some backend =>
      match result_of (train cfg data path fixed_model_name (Some backend)
                             component_builder endpoint kwargs) w with
      | Returned _ =>
          In (CallGetPersistor backend, None)
             (events_of (train cfg data path fixed_model_name (Some backend)
                               component_builder endpoint kwargs) w)
      | Raised _ => True
      end
  end.
Proof.
  destruct storage; unfold_run;
    destruct cfg, endpoint; split_path path; repeat next_call;
    try reflexivity; try exact I; cbn; auto 10.
Qed.

(** When the output path is absent or empty, the model name plays no part
    in the run. *)
Theorem fixed_model_name_unused_without_path cfg data path fixed_model_name
    fixed_model_name' storage component_builder endpoint kwargs w :
  truthy path = false ->
  run (train cfg data path fixed_model_name storage component_builder
             endpoint kwargs) w
  = run (train cfg data path fixed_model_name' storage component_builder
               endpoint kwargs) w.
Proof.
  destruct path as [[|a p]|]; cbn; intros Ht;
    [reflexivity | discriminate Ht | reflexivity].
Qed.

(** What [train] returns is what the run made: the trainer is the one built
    from the component builder given, it is the one that was trained, with
    the keyword parameters as given, and the interpreter is what that
    training returned. *)
Theorem returned_trainer_was_trained cfg data path fixed_model_name storage
    component_builder endpoint kwargs w trainer interpreter persisted_path :
  result_of (train cfg data path fixed_model_name storage component_builder
                   endpoint kwargs) w
  = Returned (trainer, interpreter, persisted_path) ->
  exists c td,
    In (CallTrainer c component_builder, None)
       (events_of (train cfg data path fixed_model_name storage
                         component_builder endpoint kwargs) w)
    /\ In (CallTrainerTrain trainer td kwargs, None)
          (events_of (train cfg data path fixed_model_name storage
                            component_builder endpoint kwargs) w)
    /\ (exists w1 w2,
           impl_Trainer c component_builder w1 = (Returned trainer, w2))
    /\ (exists w1 w2,
           impl_trainer_train trainer td kwargs w1 = (Returned interpreter, w2)).
Proof.
  unfold_run.
  destruct cfg, storage, endpoint; split_path path; repeat next_call;
    intros Hr; inversion Hr; subst;
    do 2 eexists;
    (split; [cbn; auto 10 | split; [cbn; auto 10 | split; eauto]]).
Qed.

(** A run on a configuration reference is the loading of that reference
    followed by the run on the loaded object: same result, same world, and
    the same calls after the loading. *)
Theorem train_on_reference_is_load_then_train s c data path fixed_model_name
    storage component_builder endpoint kwargs w w' :
  impl_config_load s w = (Returned c, w') ->
  run (train (CfgStr s) data path fixed_model_name storage component_builder
             endpoint kwargs) w
  = (result_of (train (CfgObj c) data path fixed_model_name storage
                      component_builder endpoint kwargs) w',
     mkState
       (world (snd (run (train (CfgObj c) data path fixed_model_name storage
                               component_builder endpoint kwargs) w')))
       ((CallConfigLoad s, None)
          :: events_of (train (CfgObj c) data path fixed_model_name storage
                              component_builder endpoint kwargs) w')).
Proof.
  intros Hl. unfold_run. rewrite Hl. cbn.
  destruct storage, endpoint; split_path path; repeat next_call;
    reflexivity.
Qed.

End Sequencing.

(** ** More runs in the concrete world *)

Section SequencingRuns.
Import Demo.

Lemma worker_never_reraises_original_witness :
  result_of (do_train_in_worker cfg "./data.md"%string (Some "./out"%string)
                                None None None)
            (training_raises (mkExc "MemoryError" []))
  <> Raised (Foreign (mkExc "MemoryError" [])).
Proof.
  apply (worker_never_reraises_original
           cfg "./data.md"%string (Some "./out"%string) None None None
           (training_raises (mkExc "MemoryError" []))).
  reflexivity.
Defined.

Lemma persist_called_for_nonempty_path_witness :
  exists persistor p',
    Some "./models/en_v1"%string = Some p'
    /\ (exists w1 w2,
           impl_trainer_persist "en"%string "./models"%string persistor
                                (Some "en_v1"%string) w1
           = (Returned p', w2))
    /\ exists pre,
        events_of (train cfg "./data.md"%string (Some "./models"%string)
                         (Some "en_v1"%string) (Some "aws"%string) None None
                         []) fine
        = pre ++ [(CallTrainerPersist "en"%string "./models"%string persistor
                                      (Some "en_v1"%string), None)].
Proof.
  apply (persist_called_for_nonempty_path
           cfg "./data.md"%string "./models"%string (Some "en_v1"%string)
           (Some "aws"%string) None None [] fine
           "en"%string ["local ./data.md"%string]
           (Some "./models/en_v1"%string)).
  - discriminate.
  - reflexivity.
Defined.

Lemma persist_receives_inputs_witness :
  Some "./models"%string = Some "./models"%string
  /\ "./models"%string <> ""%string
  /\ Some "en_v1"%string = Some "en_v1"%string
  /\ exists w1 w2,
      impl_get_persistor "aws"%string w1 = (Returned (Some "aws"%string), w2).
Proof.
  apply (persist_receives_inputs
           cfg "./data.md"%string (Some "./models"%string)
           (Some "en_v1"%string) (Some "aws"%string) None None [] fine
           "en"%string "./models"%string (Some "aws"%string)
           (Some "en_v1"%string)).
  vm_compute. auto 10.
Defined.

Lemma fixed_model_name_unused_without_path_witness :
  run (train cfg "./data.md"%string (Some ""%string) (Some "en_v1"%string)
             None None None []) fine
  = run (train cfg "./data.md"%string (Some ""%string) None None None None [])
        fine.
Proof.
  apply (fixed_model_name_unused_without_path
           cfg "./data.md"%string (Some ""%string) (Some "en_v1"%string) None
           None None None [] fine).
  reflexivity.
Defined.

Lemma returned_trainer_was_trained_witness :
  exists c td,
    In (CallTrainer c None, None)
       (events_of (train cfg "./data.md"%string None None None None
                         (Some "http://x"%string)
                         [("num_threads"%string, PyInt 4)]) fine)
    /\ In (CallTrainerTrain "en"%string td [("num_threads"%string, PyInt 4)],
           None)
          (events_of (train cfg "./data.md"%string None None None None
                            (Some "http://x"%string)
                            [("num_threads"%string, PyInt 4)]) fine)
    /\ (exists w1 w2, impl_Trainer c None w1 = (Returned "en"%string, w2))
    /\ (exists w1 w2,
           impl_trainer_train "en"%string td [("num_threads"%string, PyInt 4)]
                              w1
           = (Returned ["remote http://x"%string], w2)).
Proof.
  apply (returned_trainer_was_trained
           cfg "./data.md"%string None None None None (Some "http://x"%string)
           [("num_threads"%string, PyInt 4)] fine
           "en"%string ["remote http://x"%string] None).
  reflexivity.
Defined.

Lemma train_on_reference_is_load_then_train_witness :
  result_of (train (CfgStr "./cfg.yml"%string) "./data.md"%string
                   (Some "./models"%string) None None None None []) fine
  = result_of (train (@CfgObj domain "en"%string) "./data.md"%string
                     (Some "./models"%string) None None None None []) fine.
Proof.
  unfold result_of at 1.
  rewrite (train_on_reference_is_load_then_train
             (D:=domain) (C:=collaborators) "./cfg.yml"%string "en"%string "./data.md"%string
             (Some "./models"%string) None None None None [] fine fine);
    reflexivity.
Defined.

End SequencingRuns.
